(** * Normalizing-flow distribution layers and the Bayesian estimator

    A shallow embedding of [DistributionLayers.py] and
    [BayesianNFEstimator.py].

    Conventions of the embedding.
    - A parameter tensor [t] is modelled by one example's trailing axis, a
      [list R]; the leading batch axes ([...] in the source) are carried along
      unchanged by every operation of the source, and [t.shape[-1]] is
      [length t].  Tensor entries are real numbers: rounding, overflow and
      underflow of the floating-point formats are not modelled, and the
      properties below are about which entries go where and which expression
      is applied to them, not about numeric values.
    - Sizes and dimensions ([n_dims], parameter sizes, slice bounds) are [nat].
    - Python exceptions are values of [exn]; code that can raise returns a
      [result].
    - Constructors of TensorFlow Probability and Keras objects are recorded as
      data (the arguments they were called with); what those objects compute is
      either spelled out from the library's documented meaning
      ([chain_forward], [GaussianNoise_call]) or kept as a section variable. *)

From Stdlib Require Import Reals Lia QArith Qreals.
From stdpp Require Import base list strings gmap.

Set Default Proof Using "Type".
Local Open Scope nat_scope.

(** ** Exceptions *)

Inductive assert_site :=
  | FlowTypesRegistered   (* DistributionLayers.py:67 *)
  | ParamSizesMatch       (* DistributionLayers.py:107 *)
  | HiddenSizesIsTuple    (* BayesianNFEstimator.py:115 *)
  | KlWeightScaleLeOne    (* BayesianNFEstimator.py:116 *)
  | XNoiseStdNonNegative. (* BayesianNFEstimator.py:117 *)

Inductive type_error :=
  | UnexpectedKeyword (name : string)
  | MultipleValues (name : string)
  | TooManyPositional
  | MissingArgument (name : string).

Inductive exn :=
  | AssertionError (site : assert_site)
  | KeyError (key : string)
  | TypeError (why : type_error).

Definition result (A : Type) : Type := exn + A.

Definition ret {A} (a : A) : result A := inr a.
Definition raise {A} (e : exn) : result A := inl e.
Definition bind {A B} (m : result A) (k : A -> result B) : result B :=
  match m with
  | inl e => inl e
  | inr a => k a
  end.

Notation "x <-- m ;; k" := (bind m (fun x => k))
  (at level 100, m at next level, right associativity).

Definition py_assert (site : assert_site) (b : bool) : result unit :=
  if b then ret tt else raise (AssertionError site).

(** A list comprehension whose element expression can raise: elements are
    evaluated left to right, and the first exception ends the comprehension. *)
Fixpoint comprehension {A B} (f : A -> result B) (l : list A) : result (list B) :=
  match l with
  | [] => ret []
  | a :: l' => b <-- f a ;; bs <-- comprehension f l' ;; ret (b :: bs)
  end.

(** ** Slicing *)

(** [l[b:e]] for non-negative bounds: out-of-range bounds are clamped, and an
    empty slice results when [e <= b]. *)
Definition slice {A} (b e : nat) (l : list A) : list A := take (e - b) (drop b l).

(** [zip(xs, ys, zs)] stops at the shortest argument. *)
Fixpoint zip3 {A B C} (xs : list A) (ys : list B) (zs : list C) : list (A * B * C) :=
  match xs, ys, zs with
  | x :: xs', y :: ys', z :: zs' => (x, y, z) :: zip3 xs' ys' zs'
  | _, _, _ => []
  end.

(** ** Real functions of the tensor library *)

Definition softplus (x : R) : R := ln (1 + exp x).
Definition expm1 (x : R) : R := (exp x - 1)%R.

(** ** Distributions, as the constructor calls of [tfd] *)

Inductive scale_arg :=
  | ScalarScale (s : R)          (* a Python float, broadcast over the locations *)
  | TensorScale (v : list R).

(** [tfp.bijectors.Chain(list)]. *)
Record Chain (Bijector : Type) := MkChain { bijectors : list Bijector }.
Arguments MkChain {Bijector} _.
Arguments bijectors {Bijector} _.

Inductive Distribution (Bijector : Type) :=
  | Normal (loc : list R) (scale : scale_arg)
  | Independent (distribution : Distribution Bijector) (reinterpreted_batch_ndims : nat)
  | MultivariateNormalDiag (loc : list R) (scale_diag : option (list R))
  | TransformedDistribution (distribution : Distribution Bijector) (bijector : Chain Bijector).
Arguments Normal {Bijector} _ _.
Arguments Independent {Bijector} _ _.
Arguments MultivariateNormalDiag {Bijector} _ _.
Arguments TransformedDistribution {Bijector} _ _.

(** ** The flow registry [normalizing_flows.FLOWS]

    The module [normalizing_flows] is imported by [DistributionLayers.py]; the
    embedding takes its dictionary [FLOWS] as a parameter.  An entry is a flow
    class: the static method [get_param_size] and the constructor, called as
    [FLOWS[flow_type](params, n_dims)]. *)

Record FlowClass (Bijector : Type) := MkFlowClass {
  get_param_size : nat -> nat;
  construct : list R -> nat -> Bijector
}.
Arguments MkFlowClass {Bijector} _ _.
Arguments get_param_size {Bijector} _ _.
Arguments construct {Bijector} _ _ _.

Section FlowLayer.
Context {Bijector : Type}.
Variable FLOWS : gmap string (FlowClass Bijector).

(** [FLOWS[flow_type]] *)
Definition FLOWS_getitem (flow_type : string) : result (FlowClass Bijector) :=
  match FLOWS !! flow_type with
  | Some cls => ret cls
  | None => raise (KeyError flow_type)
  end.

(** [flow_type in FLOWS] *)
Definition FLOWS_contains (flow_type : string) : bool :=
  bool_decide (is_Some (FLOWS !! flow_type)).

Definition _get_bijector (t : list R) (flow_types : list string) (n_dims : nat)
  : result (Chain Bijector) :=
  let flow_types := rev flow_types in
  param_sizes <-- comprehension
      (fun flow_type => cls <-- FLOWS_getitem flow_type ;; ret (get_param_size cls n_dims))
      flow_types ;;
  _ <-- py_assert ParamSizesMatch (sum_list param_sizes =? length t) ;;
  let split_beginnings :=
    map (fun i => sum_list (slice 0 i param_sizes)) (seq 0 (length param_sizes)) in
  chain <-- comprehension
      (fun '(begin, size, flow_type) =>
         cls <-- FLOWS_getitem flow_type ;;
         ret (construct cls (slice begin (begin + size) t) n_dims))
      (zip3 split_beginnings param_sizes flow_types) ;;
  ret (MkChain chain).

Definition _get_base_dist (t : list R) (n_dims : nat) (trainable : bool)
  : Distribution Bijector :=
  if trainable then
    MultivariateNormalDiag
      (slice 0 n_dims t)
      (Some (map (fun raw => softplus (0.05 * raw)) (slice n_dims (2 * n_dims) t)))
  else
    MultivariateNormalDiag (map (fun _ => 0%R) (slice 0 1 t)) None.

(** The layer object: the attributes set by [__init__]. *)
Record InverseNormalizingFlowLayer := MkFlowLayer {
  _flow_types : list string;
  _trainable_base_dist : bool;
  _n_dims : nat
}.

Definition InverseNormalizingFlowLayer_init
    (flow_types : list string) (n_dims : nat) (trainable_base_dist : bool)
  : result InverseNormalizingFlowLayer :=
  _ <-- py_assert FlowTypesRegistered (forallb FLOWS_contains flow_types) ;;
  ret (MkFlowLayer flow_types trainable_base_dist n_dims).

(** The closure [make_flow_dist] built by [__init__]; it captures the
    constructor's arguments, which are the attributes of the layer.  Python
    evaluates the keyword arguments of [tfd.TransformedDistribution] in the
    order written: the base distribution first, then the bijector. *)
Definition make_flow_dist (layer : InverseNormalizingFlowLayer) (t : list R)
  : result (Distribution Bijector) :=
  let n_dims := _n_dims layer in
  let trainable_base_dist := _trainable_base_dist layer in
  let distribution := _get_base_dist t n_dims trainable_base_dist in
  bijector <-- _get_bijector
      (if trainable_base_dist then drop (2 * n_dims) t else t)
      (_flow_types layer) n_dims ;;
  ret (TransformedDistribution distribution bijector).

Definition get_total_param_size (self : InverseNormalizingFlowLayer) : result nat :=
  sizes <-- comprehension
      (fun flow_type =>
         cls <-- FLOWS_getitem flow_type ;; ret (get_param_size cls (_n_dims self)))
      (_flow_types self) ;;
  let num_flow_params := sum_list sizes in
  let base_dist_params := if _trainable_base_dist self then 2 * _n_dims self else 0 in
  ret (num_flow_params + base_dist_params).

End FlowLayer.

Arguments MkFlowLayer _ _ _ : clear implicits.

(** ** What the library objects compute

    [tfp.bijectors.Chain([b1, ..., bk])] is the composition b1 . b2 ... bk:
    its forward map applies the LAST bijector of the list first.  The forward
    and inverse maps of the flows and their inverse log-det-Jacobians belong to
    the module [normalizing_flows]; the log-density of the Gaussian
    distributions belongs to TensorFlow Probability. *)

Section Semantics.
Context {Bijector : Type}.
Variable forward : Bijector -> list R -> list R.
Variable inverse : Bijector -> list R -> list R.
Variable inverse_log_det_jacobian : Bijector -> list R -> R.
Variable gaussian_log_prob : Distribution Bijector -> list R -> R.

Definition chain_forward (c : Chain Bijector) (x : list R) : list R :=
  foldr forward x (bijectors c).

Definition chain_inverse (c : Chain Bijector) (y : list R) : list R :=
  fold_left (fun acc b => inverse b acc) (bijectors c) y.

Fixpoint ildj_list (bs : list Bijector) (y : list R) : R :=
  match bs with
  | [] => 0%R
  | b :: bs' => (inverse_log_det_jacobian b y + ildj_list bs' (inverse b y))%R
  end.

Definition chain_inverse_log_det_jacobian (c : Chain Bijector) (y : list R) : R :=
  ildj_list (bijectors c) y.

(** [d.log_prob(y)]: a transformed distribution pulls [y] back through the
    bijector and adds the inverse log-det-Jacobian. *)
Fixpoint log_prob (d : Distribution Bijector) (y : list R) : R :=
  match d with
  | TransformedDistribution base c =>
      (log_prob base (chain_inverse c y) + chain_inverse_log_det_jacobian c y)%R
  | _ => gaussian_log_prob d y
  end.

(** [d.sample()], given the sample [z] drawn from the innermost base. *)
Fixpoint sample_from (d : Distribution Bijector) (z : list R) : list R :=
  match d with
  | TransformedDistribution base c => chain_forward c (sample_from base z)
  | _ => z
  end.

(** [convert_ttfn] of [InverseNormalizingFlowLayer.__init__]. *)
Definition convert_ttfn (n_dims : nat) (d : Distribution Bijector) : R :=
  log_prob d (replicate n_dims 1%R).

End Semantics.

(** ** [MeanFieldLayer] *)

Section MeanField.
Context {Bijector : Type}.

Definition _get_distribution_fn (n_dims : nat) (uniform_scale : bool)
  : list R -> Distribution Bijector :=
  if uniform_scale then
    fun t => Independent (Normal (slice 0 n_dims t) (ScalarScale 1)) 1
  else
    fun t =>
      Independent
        (Normal
           (slice 0 n_dims t)
           (TensorScale
              (map (fun raw => (1 / 100000 + softplus (ln (expm1 1) + raw))%R)
                   (slice n_dims (2 * n_dims) t))))
        1.

End MeanField.

(** The per-component scales of a [tfd.Normal]: a scalar scale is broadcast
    against the locations. *)
Definition normal_scales (loc : list R) (scale : scale_arg) : list R :=
  match scale with
  | ScalarScale s => map (fun _ => s) loc
  | TensorScale v => v
  end.

(** Values passed as Python arguments. *)
Inductive pyval :=
  | PyNone
  | PyBool (b : bool)
  | PyInt (n : nat)
  | PyFloat (q : Q)
  | PyStr (s : string).

(** Truth value of an object in a condition. *)
Definition truthy (v : pyval) : bool :=
  match v with
  | PyNone => false
  | PyBool b => b
  | PyInt n => negb (n =? 0)
  | PyFloat q => negb (Qeq_bool q 0)
  | PyStr s => negb (String.eqb s "")
  end.

Record MeanFieldLayer := MkMeanFieldLayer {
  mf_n_dims : nat;
  mf_uniform_scale : bool;
  mf_dtype : pyval
}.

(** [MeanFieldLayer.__init__(self, n_dims, uniform_scale=False, dtype=None)] *)
Definition MeanFieldLayer_init (n_dims : nat) (uniform_scale : bool) (dtype : pyval)
  : MeanFieldLayer :=
  MkMeanFieldLayer n_dims uniform_scale dtype.

Definition MeanFieldLayer_make_dist {Bijector} (self : MeanFieldLayer)
  : list R -> Distribution Bijector :=
  _get_distribution_fn (mf_n_dims self) (mf_uniform_scale self).

Definition MeanFieldLayer_get_total_param_size (self : MeanFieldLayer) : nat :=
  if mf_uniform_scale self then mf_n_dims self else 2 * mf_n_dims self.

(** ** Calling a Python function with keyword arguments

    A signature lists the parameters after [self] with their defaults.  The
    interpreter binds the positional arguments, then the keyword arguments
    (an unknown name or a name bound twice raises [TypeError]), then rejects
    surplus positional arguments, then fills in defaults. *)

Definition signature := list (string * option pyval).

Definition has_key {V} (k : string) (l : list (string * V)) : bool :=
  existsb (fun p => String.eqb k (fst p)) l.

Fixpoint bind_positional (sig : signature) (args : list pyval) : list (string * pyval) :=
  match sig, args with
  | (p, _) :: sig', a :: args' => (p, a) :: bind_positional sig' args'
  | _, _ => []
  end.

Fixpoint bind_keywords (sig : signature) (bound : list (string * pyval))
    (kwargs : list (string * pyval)) : result (list (string * pyval)) :=
  match kwargs with
  | [] => ret bound
  | (k, v) :: kwargs' =>
      if negb (has_key k sig) then raise (TypeError (UnexpectedKeyword k))
      else if has_key k bound then raise (TypeError (MultipleValues k))
      else bind_keywords sig (bound ++ [(k, v)]) kwargs'
  end.

Fixpoint assoc (k : string) (l : list (string * pyval)) : option pyval :=
  match l with
  | [] => None
  | (k', v) :: l' => if String.eqb k k' then Some v else assoc k l'
  end.

Fixpoint fill_defaults (sig : signature) (bound : list (string * pyval))
  : result (list (string * pyval)) :=
  match sig with
  | [] => ret []
  | (p, default) :: sig' =>
      v <-- match assoc p bound, default with
            | Some v, _ => ret v
            | None, Some d => ret d
            | None, None => raise (TypeError (MissingArgument p))
            end ;;
      rest <-- fill_defaults sig' bound ;;
      ret ((p, v) :: rest)
  end.

Definition bind_args (sig : signature) (args : list pyval) (kwargs : list (string * pyval))
  : result (list (string * pyval)) :=
  bound <-- bind_keywords sig (bind_positional sig args) kwargs ;;
  _ <-- (if length sig <? length args then raise (TypeError TooManyPositional) else ret tt) ;;
  fill_defaults sig bound.

Definition arg (k : string) (bound : list (string * pyval)) : pyval :=
  default PyNone (assoc k bound).

Definition MeanFieldLayer_signature : signature :=
  [("n_dims", None); ("uniform_scale", Some (PyBool false)); ("dtype", Some PyNone)].

(** A call [MeanFieldLayer(n_dims, **kwargs)] with an integer first argument,
    the shape of both calls in [BayesianNFEstimator.py]. *)
Definition MeanFieldLayer_call (n_dims : nat) (kwargs : list (string * pyval))
  : result MeanFieldLayer :=
  bound <-- bind_args MeanFieldLayer_signature [PyInt n_dims] kwargs ;;
  ret (MeanFieldLayer_init n_dims (truthy (arg "uniform_scale" bound)) (arg "dtype" bound)).

(** ** [BayesianNFEstimator] *)

(** [tfp.layers.VariableLayer(shape, initializer=..., dtype=..., trainable=...)] *)
Record VariableLayer := MkVariableLayer {
  var_shape : nat;
  var_initializer : string;
  var_dtype : pyval;
  var_trainable : bool
}.

Inductive weight_layer :=
  | WVariable (v : VariableLayer)
  | WMeanField (m : MeanFieldLayer).

(** [tf.keras.Sequential(layers)] of a prior or posterior factory. *)
Definition weight_model := list weight_layer.

Definition weight_fn := nat -> nat -> pyval -> result weight_model.

Definition _get_prior_fn (trainable : bool) : weight_fn :=
  fun kernel_size bias_size dtype =>
    let size := kernel_size + bias_size in
    let variable := MkVariableLayer size "zeros" dtype trainable in
    mean_field <-- MeanFieldLayer_call size [("scale", PyFloat 1); ("dtype", dtype)] ;;
    ret [WVariable variable; WMeanField mean_field].

Definition _get_posterior_fn : weight_fn :=
  fun kernel_size bias_size dtype =>
    let size := kernel_size + bias_size in
    let variable := MkVariableLayer (2 * size) "normal" dtype true in
    mean_field <-- MeanFieldLayer_call size [("scale", PyNone); ("dtype", dtype)] ;;
    ret [WVariable variable; WMeanField mean_field].

(** [tfp.layers.DenseVariational(...)]: the constructor stores its arguments;
    the two factories are called when the layer is built, not here. *)
Record DenseVariational := MkDenseVariational {
  units : nat;
  make_posterior_fn : weight_fn;
  make_prior_fn : weight_fn;
  kl_weight : Q;
  dv_kl_use_exact : bool;
  dv_activation : string
}.

Inductive layer :=
  | LGaussianNoise (stddev : Q)
  | LDenseVariational (d : DenseVariational)
  | LFlow (f : InverseNormalizingFlowLayer).

(** The value given as [hidden_sizes]: a tuple of widths, or an object of
    another type (a list of widths, a single integer). *)
Inductive hidden_spec :=
  | HTuple (sizes : list nat)
  | HList (sizes : list nat)
  | HInt (size : nat).

(** [type(hidden_sizes) == tuple] *)
Definition is_tuple (hidden_sizes : hidden_spec) : bool :=
  match hidden_sizes with
  | HTuple _ => true
  | _ => false
  end.

(** [assert type(hidden_sizes) == tuple]; past it, the widths of the tuple. *)
Definition assert_tuple (hidden_sizes : hidden_spec) : result (list nat) :=
  match hidden_sizes with
  | HTuple sizes => ret sizes
  | _ => raise (AssertionError HiddenSizesIsTuple)
  end.

Definition _get_dense_layers (hidden_sizes : hidden_spec) (output_size : nat)
    (posterior prior : weight_fn) (kl_weight_scale : Q) (kl_use_exact : bool)
    (x_noise_std : Q) (activation : string) : result (list layer) :=
  sizes <-- assert_tuple hidden_sizes ;;
  _ <-- py_assert KlWeightScaleLeOne (Qle_bool kl_weight_scale 1) ;;
  _ <-- py_assert XNoiseStdNonNegative (Qle_bool 0 x_noise_std) ;;
  let noise_reg :=
    if negb (Qeq_bool x_noise_std 0) then [LGaussianNoise x_noise_std] else [] in
  let hidden :=
    map (fun size =>
           LDenseVariational
             (MkDenseVariational size posterior prior kl_weight_scale kl_use_exact activation))
        sizes in
  let output :=
    [LDenseVariational
       (MkDenseVariational output_size posterior prior kl_weight_scale kl_use_exact "linear")] in
  ret (noise_reg ++ hidden ++ output).

(** The loss closure returned by [_get_neg_log_likelihood]. *)
Inductive nll_loss :=
  | NoisyNll (y_noise_layer_stddev : Q)
  | PlainNll.

Definition _get_neg_log_likelihood (y_noise_std : Q) : nll_loss :=
  if negb (Qeq_bool y_noise_std 0) then NoisyNll y_noise_std else PlainNll.

Record BayesianNFEstimator := MkEstimator {
  layers : list layer;
  optimizer_learning_rate : Q;
  loss : nll_loss
}.

Section Estimator.
Context {Bijector : Type}.
Variable FLOWS : gmap string (FlowClass Bijector).

Definition BayesianNFEstimator_init
    (n_dims : nat) (kl_weight_scale : Q) (kl_use_exact : bool)
    (flow_types : list string) (hidden_sizes : hidden_spec)
    (trainable_base_dist : bool) (activation : string)
    (x_noise_std y_noise_std learning_rate : Q) (trainable_prior : bool)
  : result BayesianNFEstimator :=
  dist_layer <-- InverseNormalizingFlowLayer_init FLOWS flow_types n_dims trainable_base_dist ;;
  let posterior := _get_posterior_fn in
  let prior := _get_prior_fn trainable_prior in
  output_size <-- get_total_param_size FLOWS dist_layer ;;
  dense_layers <-- _get_dense_layers hidden_sizes output_size posterior prior
                     kl_weight_scale kl_use_exact x_noise_std activation ;;
  ret (MkEstimator (dense_layers ++ [LFlow dist_layer])
                   learning_rate
                   (_get_neg_log_likelihood y_noise_std)).

End Estimator.

(** ** The learning phase and the noise layer

    [tf.keras.layers.GaussianNoise(stddev)] adds zero-centred Gaussian noise of
    standard deviation [stddev] to its input while the backend's learning
    phase is on, and returns its input unchanged otherwise.  The generator is
    a stream of standard normal draws and a position in it. *)

Record backend := MkBackend {
  learning_phase : bool;
  rng_position : nat
}.

Section Loss.
Context {Bijector : Type}.
Variable log_prob_fn : Distribution Bijector -> list R -> R.
Variable draws : nat -> R.

Definition noised (stddev : Q) (position : nat) (y : list R) : list R :=
  imap (fun i yi => (yi + Q2R stddev * draws (position + i))%R) y.

Definition GaussianNoise_call (stddev : Q) (y : list R) (k : backend)
  : list R * backend :=
  if learning_phase k then
    (noised stddev (rng_position k) y,
     MkBackend (learning_phase k) (rng_position k + length y))
  else (y, k).

(** Calling the loss closure: [lambda y, p_y: -p_y.log_prob(...)]. *)
Definition call_loss (l : nll_loss) (y : list R) (p_y : Distribution Bijector)
    (k : backend) : R * backend :=
  match l with
  | NoisyNll stddev =>
      let '(y', k') := GaussianNoise_call stddev y k in
      ((- log_prob_fn p_y y')%R, k')
  | PlainNll => ((- log_prob_fn p_y y)%R, k)
  end.

End Loss.

(** ** The chain as the specification words it

    Reverse the flow list; take the parameter sizes; the offsets are the
    exclusive prefix sum of the sizes; slice the tensor at each offset and
    build the bijectors in that (reversed) order. *)

Fixpoint exclusive_prefix_sum (acc : nat) (sizes : list nat) : list nat :=
  match sizes with
  | [] => []
  | size :: rest => acc :: exclusive_prefix_sum (acc + size) rest
  end.

Section ChainSpec.
Context {Bijector : Type}.

(** The registry entries named by a list of flow types. *)
Definition registered (FLOWS : gmap string (FlowClass Bijector))
    (flow_types : list string) (classes : list (FlowClass Bijector)) : Prop :=
  Forall2 (fun flow_type cls => FLOWS !! flow_type = Some cls) flow_types classes.

Definition param_sizes_of (classes : list (FlowClass Bijector)) (dims : nat) : list nat :=
  map (fun cls => get_param_size cls dims) classes.

Definition buildChain_spec (paramTensor : list R) (classes : list (FlowClass Bijector))
    (dims : nat) : list Bijector :=
  let order := rev classes in
  let sizes := param_sizes_of order dims in
  let offsets := exclusive_prefix_sum 0 sizes in
  map (fun '(offset, size, cls) => construct cls (slice offset (offset + size) paramTensor) dims)
      (zip3 offsets sizes order).

(** The flows applied one after the other in the order the user wrote them,
    starting from a sample [x] of the base distribution: the parameters of a
    flow sit after those of all the flows that follow it in the user's
    list. *)
Fixpoint apply_in_user_order (forward : Bijector -> list R -> list R)
    (paramTensor : list R) (classes : list (FlowClass Bijector)) (dims : nat)
    (x : list R) : list R :=
  match classes with
  | [] => x
  | cls :: rest =>
      let offset := sum_list (param_sizes_of rest dims) in
      let b := construct cls (slice offset (offset + get_param_size cls dims) paramTensor) dims in
      apply_in_user_order forward paramTensor rest dims (forward b x)
  end.

(** The bijectors of a list of classes, their slices laid out from offset
    [acc] on. *)
Fixpoint chain_from (t : list R) (n_dims acc : nat) (classes : list (FlowClass Bijector))
  : list Bijector :=
  match classes with
  | [] => []
  | cls :: rest =>
      construct cls (slice acc (acc + get_param_size cls n_dims) t) n_dims
      :: chain_from t n_dims (acc + get_param_size cls n_dims) rest
  end.

End ChainSpec.

(** ** An example registry

    An instance of the parameters, used by the examples only (the properties
    are proved for every registry): three flow classes named as in the tests,
    with the parameter counts of planar, radial and affine flows; a bijector
    records its class name, its parameters and its dimension. *)

Module Example.

Record bijector := MkBijector {
  flow_name : string;
  flow_params : list R;
  flow_dims : nat
}.

Definition planar : FlowClass bijector :=
  MkFlowClass (fun n_dims => n_dims + n_dims + 1) (MkBijector "planar").
Definition radial : FlowClass bijector :=
  MkFlowClass (fun n_dims => 1 + 1 + n_dims) (MkBijector "radial").
Definition affine : FlowClass bijector :=
  MkFlowClass (fun n_dims => 2 * n_dims) (MkBijector "affine").

Definition FLOWS : gmap string (FlowClass bijector) :=
  <["planar" := planar]> (<["radial" := radial]> (<["affine" := affine]> ∅)).

(** A forward map that only depends on the first parameter: a shift. *)
Definition forward (b : bijector) (x : list R) : list R :=
  map (fun xi => (xi + default 0 (head (flow_params b)))%R) x.

Definition inverse (b : bijector) (y : list R) : list R :=
  map (fun yi => (yi - default 0 (head (flow_params b)))%R) y.

(** A shift has unit Jacobian. *)
Definition inverse_log_det_jacobian (b : bijector) (y : list R) : R := 0%R.

(** The log-density of a standard normal at a one-entry point, up to its
    additive constant, and a stream of draws 0, 1, 2, ... *)
Definition log_prob_fn (p_y : Distribution bijector) (y : list R) : R :=
  match y with
  | [v] => (- (v * v) / 2)%R
  | _ => 0%R
  end.

Definition draws (i : nat) : R := INR i.

End Example.

(** * Properties *)

(** ** The error monad and comprehensions *)

Lemma comprehension_inr {A B} (f : A -> result B) (l : list A) (bs : list B) :
  Forall2 (fun a b => f a = inr b) l bs -> comprehension f l = inr bs.
Proof.
  induction 1 as [|a b l bs Hab _ IH]; simpl; [reflexivity|].
  rewrite Hab; simpl. rewrite IH. reflexivity.
Qed.

Lemma comprehension_map {A B} (f : A -> result B) (g : A -> B) (l : list A) :
  Forall (fun a => f a = inr (g a)) l -> comprehension f l = inr (map g l).
Proof.
  intros H. apply comprehension_inr.
  induction H; constructor; auto.
Qed.

(** ** Slices and prefix sums *)

Lemma slice_0 {A} (e : nat) (l : list A) : slice 0 e l = take e l.
Proof. unfold slice. rewrite Nat.sub_0_r. reflexivity. Qed.

Lemma length_slice {A} (b e : nat) (l : list A) :
  length (slice b e l) = Nat.min (e - b) (length l - b).
Proof. unfold slice. rewrite length_take, length_drop. reflexivity. Qed.

Lemma exclusive_prefix_sum_take (acc : nat) (sizes : list nat) :
  exclusive_prefix_sum acc sizes =
  map (fun i => acc + sum_list (take i sizes)) (seq 0 (length sizes)).
Proof.
  revert acc. induction sizes as [|s sizes IH]; intros acc; simpl; [reflexivity|].
  f_equal; [lia|].
  rewrite IH, <- seq_shift, map_map.
  apply map_ext. intros i. simpl. lia.
Qed.

(** The [split_beginnings] of the source are the exclusive prefix sum. *)
Lemma split_beginnings_prefix_sum (param_sizes : list nat) :
  map (fun i => sum_list (slice 0 i param_sizes)) (seq 0 (length param_sizes)) =
  exclusive_prefix_sum 0 param_sizes.
Proof.
  rewrite exclusive_prefix_sum_take. apply map_ext. intros i.
  rewrite slice_0. reflexivity.
Qed.

Lemma sum_list_rev (l : list nat) : sum_list (rev l) = sum_list l.
Proof.
  induction l as [|a l IH]; simpl; [reflexivity|].
  rewrite sum_list_with_app. simpl. lia.
Qed.

Section ChainProperties.
Context {Bijector : Type}.
Variable FLOWS : gmap string (FlowClass Bijector).
Variable forward : Bijector -> list R -> list R.

Lemma registered_rev flow_types classes :
  registered FLOWS flow_types classes -> registered FLOWS (rev flow_types) (rev classes).
Proof.
  induction 1 as [|ft cls fts clss Hft _ IH]; simpl; [constructor|].
  apply Forall2_app; [exact IH|]. repeat constructor. exact Hft.
Qed.

Lemma FLOWS_getitem_registered flow_type cls :
  FLOWS !! flow_type = Some cls -> FLOWS_getitem FLOWS flow_type = inr cls.
Proof. intros H. unfold FLOWS_getitem. rewrite H. reflexivity. Qed.

Lemma param_sizes_comprehension flow_types classes n_dims :
  registered FLOWS flow_types classes ->
  comprehension
    (fun flow_type => cls <-- FLOWS_getitem FLOWS flow_type ;; ret (get_param_size cls n_dims))
    flow_types = inr (param_sizes_of classes n_dims).
Proof.
  intros H. apply comprehension_inr. unfold param_sizes_of.
  induction H as [|ft cls fts clss Hft _ IH]; simpl; constructor; auto.
  rewrite (FLOWS_getitem_registered _ _ Hft). reflexivity.
Qed.

Lemma chain_comprehension t n_dims acc flow_types (classes : list (FlowClass Bijector)) :
  registered FLOWS flow_types classes ->
  comprehension
    (fun '(begin, size, flow_type) =>
       cls <-- FLOWS_getitem FLOWS flow_type ;;
       ret (construct cls (slice begin (begin + size) t) n_dims))
    (zip3 (exclusive_prefix_sum acc (param_sizes_of classes n_dims))
          (param_sizes_of classes n_dims) flow_types)
  = inr (chain_from t n_dims acc classes).
Proof.
  intros H. revert acc.
  induction H as [|ft cls fts clss Hft _ IH]; intros acc; simpl; [reflexivity|].
  rewrite (FLOWS_getitem_registered _ _ Hft). simpl.
  rewrite IH. reflexivity.
Qed.

Lemma buildChain_spec_chain_from t (classes : list (FlowClass Bijector)) n_dims :
  buildChain_spec t classes n_dims = chain_from t n_dims 0 (rev classes).
Proof.
  unfold buildChain_spec. generalize (rev classes) as order. generalize 0 as acc.
  intros acc order. revert acc.
  induction order as [|cls order IH]; intros acc; simpl; [reflexivity|].
  f_equal. apply IH.
Qed.

Lemma chain_from_app t n_dims acc (l1 l2 : list (FlowClass Bijector)) :
  chain_from t n_dims acc (l1 ++ l2) =
  chain_from t n_dims acc l1
  ++ chain_from t n_dims (acc + sum_list (param_sizes_of l1 n_dims)) l2.
Proof.
  revert acc. induction l1 as [|c l1 IH]; intros acc; simpl.
  - rewrite Nat.add_0_r. reflexivity.
  - rewrite IH. do 3 f_equal. lia.
Qed.

Lemma param_sizes_of_rev (classes : list (FlowClass Bijector)) n_dims :
  param_sizes_of (rev classes) n_dims = rev (param_sizes_of classes n_dims).
Proof. unfold param_sizes_of. apply map_rev. Qed.

Lemma chain_forward_user_order t n_dims (classes : list (FlowClass Bijector)) x :
  chain_forward forward (MkChain (chain_from t n_dims 0 (rev classes))) x =
  apply_in_user_order forward t classes n_dims x.
Proof.
  unfold chain_forward. simpl. revert x.
  induction classes as [|cls rest IH]; intros x; simpl; [reflexivity|].
  rewrite chain_from_app, foldr_app. simpl.
  rewrite param_sizes_of_rev, sum_list_rev. apply IH.
Qed.

(** Success of [_get_bijector] and the chain it returns. *)
Lemma _get_bijector_ok t flow_types classes n_dims :
  registered FLOWS flow_types classes ->
  sum_list (param_sizes_of classes n_dims) = length t ->
  _get_bijector FLOWS t flow_types n_dims =
  inr (MkChain (chain_from t n_dims 0 (rev classes))).
Proof.
  intros Hreg Hlen. unfold _get_bijector.
  rewrite (param_sizes_comprehension _ _ n_dims (registered_rev _ _ Hreg)). simpl.
  rewrite param_sizes_of_rev, sum_list_rev, Hlen, Nat.eqb_refl. simpl.
  rewrite split_beginnings_prefix_sum, <- param_sizes_of_rev.
  rewrite (chain_comprehension t n_dims 0 _ _ (registered_rev _ _ Hreg)).
  reflexivity.
Qed.

(** Failure of the size assertion. *)
Lemma _get_bijector_mismatch t flow_types classes n_dims :
  registered FLOWS flow_types classes ->
  sum_list (param_sizes_of classes n_dims) <> length t ->
  _get_bijector FLOWS t flow_types n_dims = inl (AssertionError ParamSizesMatch).
Proof.
  intros Hreg Hlen. unfold _get_bijector.
  rewrite (param_sizes_comprehension _ _ n_dims (registered_rev _ _ Hreg)). simpl.
  rewrite param_sizes_of_rev, sum_list_rev.
  destruct (Nat.eqb_spec (sum_list (param_sizes_of classes n_dims)) (length t)) as [E|E];
    [contradiction|reflexivity].
Qed.

(** C1. For a non-empty list of registered flow types and a parameter tensor
    of the matching size, [_get_bijector] returns the chain described by the
    specification: the flow list reversed, the offsets the exclusive prefix
    sum of the parameter sizes, one slice [t[offset : offset + size]] per
    flow, the bijectors composed in that reversed order.  Applied to a sample
    of the base distribution, the chain runs the flows in the order the user
    wrote them. *)
Theorem get_bijector_reversed_chain t flow_types classes n_dims :
  flow_types <> [] ->
  registered FLOWS flow_types classes ->
  sum_list (param_sizes_of classes n_dims) = length t ->
  _get_bijector FLOWS t flow_types n_dims = inr (MkChain (buildChain_spec t classes n_dims))
  /\ (forall x,
        chain_forward forward (MkChain (buildChain_spec t classes n_dims)) x =
        apply_in_user_order forward t classes n_dims x).
Proof.
  intros _ Hreg Hlen. rewrite buildChain_spec_chain_from. split.
  - apply _get_bijector_ok; assumption.
  - intros x. apply chain_forward_user_order.
Qed.

End ChainProperties.

(** ** The flow layer *)

Section FlowLayerProperties.
Context {Bijector : Type}.
Variable FLOWS : gmap string (FlowClass Bijector).

Lemma registered_of_contains (flow_types : list string) :
  forallb (FLOWS_contains FLOWS) flow_types = true ->
  exists classes, registered FLOWS flow_types classes.
Proof.
  induction flow_types as [|ft fts IH]; simpl; intros H.
  - exists []. constructor.
  - apply andb_prop in H as [Hft Hfts].
    destruct (IH Hfts) as [classes Hcl].
    unfold FLOWS_contains in Hft. apply bool_decide_eq_true in Hft as [cls Hcls].
    exists (cls :: classes). constructor; assumption.
Qed.

Lemma contains_of_registered (flow_types : list string) classes :
  registered FLOWS flow_types classes ->
  forallb (FLOWS_contains FLOWS) flow_types = true.
Proof.
  induction 1 as [|ft cls fts clss Hft _ IH]; simpl; [reflexivity|].
  rewrite IH, andb_true_r. unfold FLOWS_contains.
  apply bool_decide_eq_true. eauto.
Qed.

Lemma init_inr flow_types n_dims trainable layer :
  InverseNormalizingFlowLayer_init FLOWS flow_types n_dims trainable = inr layer ->
  layer = MkFlowLayer flow_types trainable n_dims
  /\ exists classes, registered FLOWS flow_types classes.
Proof.
  unfold InverseNormalizingFlowLayer_init.
  destruct (forallb (FLOWS_contains FLOWS) flow_types) eqn:E; simpl; [|discriminate].
  intros [= <-]. split; [reflexivity|]. apply registered_of_contains, E.
Qed.

Lemma init_registered flow_types classes n_dims trainable :
  registered FLOWS flow_types classes ->
  InverseNormalizingFlowLayer_init FLOWS flow_types n_dims trainable =
  inr (MkFlowLayer flow_types trainable n_dims).
Proof.
  intros H. unfold InverseNormalizingFlowLayer_init.
  rewrite (contains_of_registered _ _ H). reflexivity.
Qed.

Lemma init_unregistered flow_types n_dims trainable :
  forallb (FLOWS_contains FLOWS) flow_types = false ->
  InverseNormalizingFlowLayer_init FLOWS flow_types n_dims trainable =
  inl (AssertionError FlowTypesRegistered).
Proof. intros H. unfold InverseNormalizingFlowLayer_init. rewrite H. reflexivity. Qed.

Lemma get_total_param_size_registered flow_types classes n_dims trainable :
  registered FLOWS flow_types classes ->
  get_total_param_size FLOWS (MkFlowLayer flow_types trainable n_dims) =
  inr (sum_list (param_sizes_of classes n_dims) + (if trainable then 2 * n_dims else 0)).
Proof.
  intros H. unfold get_total_param_size; simpl.
  rewrite (param_sizes_comprehension FLOWS _ _ n_dims H). reflexivity.
Qed.

(** C2. On a constructed layer, [get_total_param_size] returns the sum of
    the registered parameter sizes of its flows at [n_dims], plus
    [2 * n_dims] when the base distribution is trainable and plus nothing
    otherwise; with a fixed base it is exactly the sum of the per-flow
    sizes. *)
Theorem get_total_param_size_sum flow_types n_dims trainable layer :
  InverseNormalizingFlowLayer_init FLOWS flow_types n_dims trainable = inr layer ->
  exists classes,
    registered FLOWS flow_types classes
    /\ get_total_param_size FLOWS layer =
       inr (sum_list (param_sizes_of classes n_dims)
            + (if trainable then 2 * n_dims else 0))
    /\ (trainable = false ->
        get_total_param_size FLOWS layer = inr (sum_list (param_sizes_of classes n_dims))).
Proof.
  intros Hinit. apply init_inr in Hinit as [-> [classes Hreg]].
  exists classes. split; [exact Hreg|].
  rewrite (get_total_param_size_registered _ _ _ _ Hreg). split; [reflexivity|].
  intros ->. rewrite Nat.add_0_r. reflexivity.
Qed.


Lemma _get_base_dist_trainable (t : list R) n_dims :
  @_get_base_dist Bijector t n_dims true =
  MultivariateNormalDiag (take n_dims t)
    (Some (map (fun raw => softplus (0.05 * raw)) (take n_dims (drop n_dims t)))).
Proof.
  unfold _get_base_dist. rewrite slice_0. unfold slice.
  replace (2 * n_dims - n_dims) with n_dims by lia. reflexivity.
Qed.

(** Without a trainable base the location has one entry (none for an empty
    tensor), whatever [n_dims] is. *)
Lemma _get_base_dist_fixed (t : list R) n_dims :
  @_get_base_dist Bijector t n_dims false =
  MultivariateNormalDiag (replicate (Nat.min 1 (length t)) 0%R) None.
Proof.
  unfold _get_base_dist. rewrite slice_0. destruct t; reflexivity.
Qed.

End FlowLayerProperties.

(** C4. Evaluation at [n_dims = 2] with a fixed base: for the four parameters
    of one affine flow the base distribution built by [_get_base_dist] has a
    location of ONE entry, not two, and so has every larger [n_dims]; the
    trainable branch does take [n_dims] entries. *)
Theorem fixed_base_has_one_component (a b c d : R) :
  @_get_base_dist Example.bijector [a; b; c; d] 2 false = MultivariateNormalDiag [0%R] None
  /\ (forall n_dims,
        @_get_base_dist Example.bijector [a; b; c; d] n_dims false =
        MultivariateNormalDiag [0%R] None)
  /\ @_get_base_dist Example.bijector [a; b; c; d] 2 true =
     MultivariateNormalDiag [a; b] (Some [softplus (0.05 * c); softplus (0.05 * d)]).
Proof. repeat split. Qed.

Section EmptyChain.
Context {Bijector : Type}.
Variable FLOWS : gmap string (FlowClass Bijector).
Variable forward : Bijector -> list R -> list R.
Variable inverse : Bijector -> list R -> list R.
Variable inverse_log_det_jacobian : Bijector -> list R -> R.
Variable gaussian_log_prob : Distribution Bijector -> list R -> R.

Lemma drop_all_length {A} (n : nat) (l : list A) : length l = n -> drop n l = [].
Proof. intros <-. apply drop_all. Qed.

(** C9. With an empty flow list and a trainable base, a parameter tensor of
    length [2 * n_dims] yields the trainable base Gaussian transformed by the
    empty chain, and the empty chain is the identity: samples and
    log-densities of the output are those of the base distribution. *)
Theorem empty_flow_list_is_base (n_dims : nat) (t : list R) :
  0 < n_dims ->
  length t = 2 * n_dims ->
  let base := _get_base_dist t n_dims true in
  let output := TransformedDistribution base (MkChain []) in
  InverseNormalizingFlowLayer_init FLOWS [] n_dims true = inr (MkFlowLayer [] true n_dims)
  /\ make_flow_dist FLOWS (MkFlowLayer [] true n_dims) t = inr output
  /\ base = MultivariateNormalDiag (take n_dims t)
              (Some (map (fun raw => softplus (0.05 * raw)) (drop n_dims t)))
  /\ (forall x, chain_forward forward (MkChain []) x = x)
  /\ (forall z, sample_from forward output z = sample_from forward base z)
  /\ (forall y,
        log_prob inverse inverse_log_det_jacobian gaussian_log_prob output y =
        log_prob inverse inverse_log_det_jacobian gaussian_log_prob base y).
Proof.
  intros _ Hlen base output. repeat split.
  - unfold make_flow_dist. cbn [_n_dims _trainable_base_dist _flow_types].
    rewrite (drop_all_length _ _ Hlen). reflexivity.
  - unfold base. rewrite _get_base_dist_trainable. do 3 f_equal.
    apply take_ge. rewrite length_drop. lia.
  - intros y. unfold output. cbn [log_prob].
    unfold chain_inverse, chain_inverse_log_det_jacobian.
    cbn [bijectors fold_left ildj_list]. apply Rplus_0_r.
Qed.

End EmptyChain.

(** ** The mean-field layer *)

(** C6. [MeanFieldLayer] with [uniform_scale = True] builds independent
    Gaussians whose means are the first [n_dims] entries of the tensor and
    whose scales are all exactly one, whatever the further entries are, and
    needs [n_dims] parameters; with [uniform_scale = False] the scales are
    [1e-5 + softplus(log(expm1(1)) + raw)] of the next [n_dims] entries, and it
    needs [2 * n_dims] parameters. *)
Theorem mean_field_layer_distribution {Bijector : Type}
    (n_dims : nat) (dtype : pyval) (t : list R) :
  0 < n_dims ->
  let uniform := MeanFieldLayer_init n_dims true dtype in
  let free := MeanFieldLayer_init n_dims false dtype in
  let means := take n_dims t in
  let raws := take n_dims (drop n_dims t) in
  (MeanFieldLayer_get_total_param_size uniform = n_dims
   /\ @MeanFieldLayer_make_dist Bijector uniform t = Independent (Normal means (ScalarScale 1)) 1
   /\ normal_scales means (ScalarScale 1) = replicate (length means) 1%R
   /\ (forall t', take n_dims t' = means ->
         @MeanFieldLayer_make_dist Bijector uniform t' =
         @MeanFieldLayer_make_dist Bijector uniform t)
   /\ (n_dims <= length t -> length means = n_dims))
  /\ (MeanFieldLayer_get_total_param_size free = 2 * n_dims
      /\ @MeanFieldLayer_make_dist Bijector free t =
         Independent
           (Normal means
              (TensorScale
                 (map (fun raw => (1 / 100000 + softplus (ln (expm1 1) + raw))%R) raws)))
           1
      /\ (2 * n_dims <= length t ->
          length means = n_dims /\ length raws = n_dims)).
Proof.
  intros _ uniform free means raws. split; [split; [reflexivity|]|split; [reflexivity|]].
  - split; [|split; [|split]].
    + unfold MeanFieldLayer_make_dist, _get_distribution_fn; simpl.
      rewrite slice_0. reflexivity.
    + unfold normal_scales. induction means; simpl; congruence.
    + intros t' Ht'. unfold MeanFieldLayer_make_dist, _get_distribution_fn; simpl.
      rewrite !slice_0. fold means. rewrite Ht'. reflexivity.
    + intros H. unfold means. rewrite length_take. lia.
  - split.
    + unfold MeanFieldLayer_make_dist, _get_distribution_fn.
      cbn [mf_n_dims mf_uniform_scale free MeanFieldLayer_init].
      rewrite slice_0. unfold slice.
      replace (2 * n_dims - n_dims) with n_dims by lia. reflexivity.
    + intros H. unfold means, raws. rewrite !length_take, length_drop. lia.
Qed.

(** ** The Bayesian estimator *)

(** C5. Both weight factories raise [TypeError] whenever they are called:
    they pass a keyword argument [scale] to [MeanFieldLayer], whose
    constructor takes [n_dims], [uniform_scale] and [dtype] only.  No prior
    and no posterior layer is ever produced. *)
Theorem weight_factories_raise_type_error
    (trainable : bool) (kernel_size bias_size : nat) (dtype : pyval) :
  _get_prior_fn trainable kernel_size bias_size dtype
    = inl (TypeError (UnexpectedKeyword "scale"))
  /\ _get_posterior_fn kernel_size bias_size dtype
    = inl (TypeError (UnexpectedKeyword "scale")).
Proof. split; reflexivity. Qed.

(** The call the factories were written for does go through when the keyword
    is the one the constructor declares. *)
Lemma MeanFieldLayer_call_uniform_scale (size : nat) (dtype : pyval) :
  MeanFieldLayer_call size [("uniform_scale", PyBool true); ("dtype", dtype)]
  = inr (MeanFieldLayer_init size true dtype).
Proof. reflexivity. Qed.

Lemma Qle_bool_false_lt (a b : Q) : (b < a)%Q -> Qle_bool a b = false.
Proof.
  intros H. destruct (Qle_bool a b) eqn:E; [|reflexivity].
  apply Qle_bool_iff in E. exfalso. exact (Qlt_not_le _ _ H E).
Qed.

Section EstimatorProperties.
Context {Bijector : Type}.
Variable FLOWS : gmap string (FlowClass Bijector).

Lemma _get_dense_layers_rejects hidden_sizes output_size posterior prior
    kl_weight_scale kl_use_exact x_noise_std activation :
  (1 < kl_weight_scale)%Q \/ (x_noise_std < 0)%Q \/ is_tuple hidden_sizes = false ->
  exists site,
    _get_dense_layers hidden_sizes output_size posterior prior
      kl_weight_scale kl_use_exact x_noise_std activation
    = inl (AssertionError site).
Proof.
  intros H. unfold _get_dense_layers.
  destruct hidden_sizes as [sizes|sizes|size]; simpl;
    try (exists HiddenSizesIsTuple; reflexivity).
  destruct (Qle_bool kl_weight_scale 1) eqn:Ekl; simpl;
    [|exists KlWeightScaleLeOne; reflexivity].
  destruct (Qle_bool 0 x_noise_std) eqn:Ex; simpl;
    [|exists XNoiseStdNonNegative; reflexivity].
  exfalso. destruct H as [H|[H|H]].
  - rewrite (Qle_bool_false_lt _ _ H) in Ekl. discriminate.
  - rewrite (Qle_bool_false_lt _ _ H) in Ex. discriminate.
  - discriminate.
Qed.

(** C8, as the code has it. Constructing an estimator with
    [kl_weight_scale > 1], with a negative input-noise standard deviation, or
    with hidden sizes that are not a tuple fails with an [AssertionError]
    during construction.  (The output-noise standard deviation is not
    checked.) *)
Theorem estimator_init_rejects_invalid
    n_dims kl_weight_scale kl_use_exact flow_types hidden_sizes trainable_base_dist
    activation x_noise_std y_noise_std learning_rate trainable_prior :
  (1 < kl_weight_scale)%Q \/ (x_noise_std < 0)%Q \/ is_tuple hidden_sizes = false ->
  exists site,
    BayesianNFEstimator_init FLOWS n_dims kl_weight_scale kl_use_exact flow_types
      hidden_sizes trainable_base_dist activation x_noise_std y_noise_std
      learning_rate trainable_prior
    = inl (AssertionError site).
Proof.
  intros H. unfold BayesianNFEstimator_init.
  destruct (InverseNormalizingFlowLayer_init FLOWS flow_types n_dims trainable_base_dist)
    as [e|dist_layer] eqn:Einit.
  - unfold InverseNormalizingFlowLayer_init in Einit.
    destruct (forallb (FLOWS_contains FLOWS) flow_types); simpl in Einit; [discriminate|].
    injection Einit as <-. exists FlowTypesRegistered. reflexivity.
  - apply init_inr in Einit as [-> [classes Hreg]]. cbn [bind].
    rewrite (get_total_param_size_registered FLOWS _ _ _ _ Hreg). cbn [bind].
    destruct (_get_dense_layers_rejects hidden_sizes
                (sum_list (param_sizes_of classes n_dims)
                 + (if trainable_base_dist then 2 * n_dims else 0))
                _get_posterior_fn (_get_prior_fn trainable_prior)
                kl_weight_scale kl_use_exact x_noise_std activation H) as [site Hsite].
    rewrite Hsite. exists site. reflexivity.
Qed.

End EstimatorProperties.

(** C8, as stated, fails: a negative output-noise standard deviation passes
    construction.  The arguments are the defaults of [__init__] except for
    [flow_types = ()] and [y_noise_std = -1]. *)
Lemma negative_y_noise_std_is_accepted :
  ~ (forall n_dims kl_weight_scale kl_use_exact flow_types hidden_sizes trainable_base_dist
            activation x_noise_std y_noise_std learning_rate trainable_prior,
       (1 < kl_weight_scale)%Q \/ (x_noise_std < 0)%Q \/ (y_noise_std < 0)%Q
       \/ is_tuple hidden_sizes = false ->
       exists e,
         BayesianNFEstimator_init Example.FLOWS n_dims kl_weight_scale kl_use_exact
           flow_types hidden_sizes trainable_base_dist activation x_noise_std y_noise_std
           learning_rate trainable_prior
         = inl e).
Proof.
  intros H.
  destruct (H 1 1%Q false [] (HTuple [10]) true "tanh" 0%Q (-1)%Q (2 # 100)%Q false)
    as [e He].
  - right. right. left. reflexivity.
  - discriminate He.
Qed.

(** ** Examples *)

Lemma get_bijector_reversed_chain_example :
  let t := [1; 2; 3; 4; 5]%R in
  _get_bijector Example.FLOWS t ["radial"; "affine"] 1
    = inr (MkChain (buildChain_spec t [Example.radial; Example.affine] 1))
  /\ (forall x,
        chain_forward Example.forward
          (MkChain (buildChain_spec t [Example.radial; Example.affine] 1)) x =
        apply_in_user_order Example.forward t [Example.radial; Example.affine] 1 x).
Proof.
  apply (get_bijector_reversed_chain Example.FLOWS Example.forward
           [1; 2; 3; 4; 5]%R ["radial"; "affine"] [Example.radial; Example.affine] 1).
  - discriminate.
  - repeat constructor.
  - reflexivity.
Defined.

(** The chain of the example: the affine flow comes first in the list and
    takes the first two parameters; the radial flow takes the last three and
    is applied first. *)
Example buildChain_spec_example :
  buildChain_spec [1; 2; 3; 4; 5]%R [Example.radial; Example.affine] 1 =
  [Example.MkBijector "affine" [1; 2]%R 1; Example.MkBijector "radial" [3; 4; 5]%R 1].
Proof. reflexivity. Qed.

Lemma get_total_param_size_sum_example :
  exists classes,
    registered Example.FLOWS ["radial"; "affine"; "planar"] classes
    /\ get_total_param_size Example.FLOWS (MkFlowLayer ["radial"; "affine"; "planar"] true 3)
       = inr (sum_list (param_sizes_of classes 3) + (if true then 2 * 3 else 0))
    /\ (true = false ->
        get_total_param_size Example.FLOWS (MkFlowLayer ["radial"; "affine"; "planar"] true 3)
        = inr (sum_list (param_sizes_of classes 3))).
Proof.
  apply (get_total_param_size_sum Example.FLOWS ["radial"; "affine"; "planar"] 3 true).
  reflexivity.
Defined.

Example get_total_param_size_example :
  get_total_param_size Example.FLOWS (MkFlowLayer ["radial"; "affine"; "planar"] true 3)
  = inr 24.
Proof. reflexivity. Qed.


Lemma mean_field_layer_distribution_example :
  let t := [1; 2; 3; 4]%R in
  let uniform := MeanFieldLayer_init 2 true PyNone in
  let free := MeanFieldLayer_init 2 false PyNone in
  let means := take 2 t in
  let raws := take 2 (drop 2 t) in
  (MeanFieldLayer_get_total_param_size uniform = 2
   /\ @MeanFieldLayer_make_dist Example.bijector uniform t
      = Independent (Normal means (ScalarScale 1)) 1
   /\ normal_scales means (ScalarScale 1) = replicate (length means) 1%R
   /\ (forall t', take 2 t' = means ->
         @MeanFieldLayer_make_dist Example.bijector uniform t' =
         @MeanFieldLayer_make_dist Example.bijector uniform t)
   /\ (2 <= length t -> length means = 2))
  /\ (MeanFieldLayer_get_total_param_size free = 2 * 2
      /\ @MeanFieldLayer_make_dist Example.bijector free t =
         Independent
           (Normal means
              (TensorScale
                 (map (fun raw => (1 / 100000 + softplus (ln (expm1 1) + raw))%R) raws)))
           1
      /\ (2 * 2 <= length t -> length means = 2 /\ length raws = 2)).
Proof.
  apply (@mean_field_layer_distribution Example.bijector 2 PyNone [1; 2; 3; 4]%R).
  lia.
Defined.

Lemma estimator_init_rejects_invalid_example :
  exists site,
    BayesianNFEstimator_init Example.FLOWS 1 2 false ["radial"; "radial"] (HTuple [10]) true
      "tanh" 0 0 (2 # 100) false
    = inl (AssertionError site).
Proof.
  apply (estimator_init_rejects_invalid Example.FLOWS).
  left. reflexivity.
Defined.

Lemma empty_flow_list_is_base_example :
  let t := [0; 0]%R in
  let base : Distribution Example.bijector := _get_base_dist t 1 true in
  let output := TransformedDistribution base (MkChain []) in
  InverseNormalizingFlowLayer_init Example.FLOWS [] 1 true = inr (MkFlowLayer [] true 1)
  /\ make_flow_dist Example.FLOWS (MkFlowLayer [] true 1) t = inr output
  /\ base = MultivariateNormalDiag (take 1 t)
              (Some (map (fun raw => softplus (0.05 * raw)) (drop 1 t)))
  /\ (forall x, chain_forward Example.forward (MkChain []) x = x)
  /\ (forall z, sample_from Example.forward output z = sample_from Example.forward base z)
  /\ (forall y,
        log_prob Example.inverse Example.inverse_log_det_jacobian Example.log_prob_fn output y =
        log_prob Example.inverse Example.inverse_log_det_jacobian Example.log_prob_fn base y).
Proof.
  apply (empty_flow_list_is_base Example.FLOWS Example.forward Example.inverse
           Example.inverse_log_det_jacobian Example.log_prob_fn 1 [0; 0]%R).
  - lia.
  - reflexivity.
Defined.

(** * Further properties of the layers *)

Lemma comprehension_app_inl {A B} (f : A -> result B) (l1 : list A) (a : A) (l2 : list A)
    (bs : list B) (e : exn) :
  comprehension f l1 = inr bs -> f a = inl e ->
  comprehension f (l1 ++ a :: l2) = inl e.
Proof.
  revert bs. induction l1 as [|a1 l1 IH]; simpl; intros bs Hl Ha.
  - rewrite Ha. reflexivity.
  - destruct (f a1) as [e1|b1]; simpl in *; [discriminate|].
    destruct (comprehension f l1) as [e'|bs'] eqn:E; simpl in *; [discriminate|].
    rewrite (IH bs' eq_refl Ha). reflexivity.
Qed.

Lemma chain_from_length {Bijector} (t : list R) n_dims acc (classes : list (FlowClass Bijector)) :
  length (chain_from t n_dims acc classes) = length classes.
Proof.
  revert acc. induction classes as [|cls rest IH]; intros acc; simpl; [reflexivity|].
  rewrite IH. reflexivity.
Qed.

Lemma chain_from_reshape {Bijector} (t : list R) n_dims acc
    (classes : list (FlowClass Bijector)) :
  chain_from t n_dims acc classes =
  zip_with (fun cls block => construct cls block n_dims) classes
           (reshape (param_sizes_of classes n_dims) (drop acc t)).
Proof.
  revert acc. induction classes as [|cls rest IH]; intros acc; simpl; [reflexivity|].
  f_equal.
  - unfold slice. do 2 f_equal. lia.
  - rewrite IH, drop_drop. reflexivity.
Qed.

Lemma reshape_lengths {A} (sizes : list nat) (l : list A) :
  sum_list sizes <= length l -> map length (reshape sizes l) = sizes.
Proof.
  revert l. induction sizes as [|s sizes IH]; intros l Hsum; simpl; [reflexivity|].
  simpl in Hsum. rewrite length_take, IH by (rewrite length_drop; lia).
  f_equal. lia.
Qed.

Section FlowLayerExtras.
Context {Bijector : Type}.
Variable FLOWS : gmap string (FlowClass Bijector).

Lemma registered_length flow_types (classes : list (FlowClass Bijector)) :
  registered FLOWS flow_types classes -> length classes = length flow_types.
Proof. intros H. symmetry. exact (Forall2_length _ _ _ H). Qed.

Lemma forallb_contains_false flow_types :
  forallb (FLOWS_contains FLOWS) flow_types = false ->
  Exists (fun flow_type => FLOWS !! flow_type = None) flow_types.
Proof.
  induction flow_types as [|ft fts IH]; simpl; [discriminate|].
  destruct (FLOWS_contains FLOWS ft) eqn:E; simpl.
  - intros H. apply Exists_cons_tl, IH, H.
  - intros _. apply Exists_cons_hd. unfold FLOWS_contains in E.
    apply bool_decide_eq_false in E. destruct (FLOWS !! ft) eqn:L; [|reflexivity].
    exfalso. apply E. eauto.
Qed.

(** X1. The constructor of the flow layer accepts a list of flow types exactly
    when every one of them is a key of [FLOWS]; its only failure is the
    assertion on the flow types, raised when some flow type is unknown. *)
Theorem init_accepts_exactly_registered flow_types n_dims trainable :
  match InverseNormalizingFlowLayer_init FLOWS flow_types n_dims trainable with
  | inr layer =>
      layer = MkFlowLayer flow_types trainable n_dims
      /\ Forall (fun flow_type => is_Some (FLOWS !! flow_type)) flow_types
  | inl e =>
      e = AssertionError FlowTypesRegistered
      /\ Exists (fun flow_type => FLOWS !! flow_type = None) flow_types
  end.
Proof.
  destruct (InverseNormalizingFlowLayer_init FLOWS flow_types n_dims trainable)
    as [e|layer] eqn:E.
  - unfold InverseNormalizingFlowLayer_init in E.
    destruct (forallb (FLOWS_contains FLOWS) flow_types) eqn:Hall; simpl in E; [discriminate|].
    injection E as <-. split; [reflexivity|]. apply forallb_contains_false, Hall.
  - apply init_inr in E as [-> [classes Hreg]]. split; [reflexivity|].
    induction Hreg; constructor; eauto.
Qed.

(** X2. Called directly with a flow type that is not a key of [FLOWS],
    [_get_bijector] raises [KeyError] for the LAST unknown flow type of the
    list it was given (the first one met in the reversed list), whatever the
    tensor is: the lookup comes before the size assertion. *)
Theorem get_bijector_key_error (t : list R) before flow_type after classes n_dims :
  FLOWS !! flow_type = None ->
  registered FLOWS after classes ->
  _get_bijector FLOWS t (before ++ flow_type :: after) n_dims = inl (KeyError flow_type).
Proof.
  intros Hnone Hreg. unfold _get_bijector.
  rewrite rev_app_distr. simpl. rewrite <- app_assoc. simpl.
  rewrite (comprehension_app_inl _ _ _ _ (param_sizes_of (rev classes) n_dims)
             (KeyError flow_type)); [reflexivity| |].
  - apply param_sizes_comprehension, registered_rev, Hreg.
  - unfold FLOWS_getitem. rewrite Hnone. reflexivity.
Qed.

(** X3. On a constructed layer, for a tensor that holds at least the
    [2 * n_dims] entries of a trainable base, the distribution is built exactly
    when the tensor, less those base entries, has as many entries as the flows
    take; it is then the base distribution transformed by the chain of the
    flows over those entries. *)
Theorem make_flow_dist_succeeds_iff flow_types classes n_dims trainable layer (t : list R) :
  InverseNormalizingFlowLayer_init FLOWS flow_types n_dims trainable = inr layer ->
  registered FLOWS flow_types classes ->
  (trainable = true -> 2 * n_dims <= length t) ->
  let flow_params := if trainable then drop (2 * n_dims) t else t in
  (length flow_params = sum_list (param_sizes_of classes n_dims)
   <-> exists d, make_flow_dist FLOWS layer t = inr d)
  /\ (length flow_params = sum_list (param_sizes_of classes n_dims) ->
      make_flow_dist FLOWS layer t =
      inr (TransformedDistribution (_get_base_dist t n_dims trainable)
             (MkChain (buildChain_spec flow_params classes n_dims)))).
Proof.
  intros Hinit Hreg _ flow_params. apply init_inr in Hinit as [-> _].
  assert (Hok : length flow_params = sum_list (param_sizes_of classes n_dims) ->
                make_flow_dist FLOWS (MkFlowLayer flow_types trainable n_dims) t =
                inr (TransformedDistribution (_get_base_dist t n_dims trainable)
                       (MkChain (buildChain_spec flow_params classes n_dims)))).
  { intros Hlen. unfold make_flow_dist. cbn [_n_dims _trainable_base_dist _flow_types].
    fold flow_params.
    rewrite (_get_bijector_ok FLOWS flow_params flow_types classes n_dims Hreg)
      by (symmetry; exact Hlen).
    rewrite buildChain_spec_chain_from. reflexivity. }
  split; [split|exact Hok].
  - intros Hlen. eexists. apply Hok, Hlen.
  - intros [d Hd].
    destruct (Nat.eq_dec (sum_list (param_sizes_of classes n_dims)) (length flow_params))
      as [Heq|Hne]; [symmetry; exact Heq|].
    exfalso. unfold make_flow_dist in Hd.
    cbn [_n_dims _trainable_base_dist _flow_types] in Hd. fold flow_params in Hd.
    rewrite (_get_bijector_mismatch FLOWS flow_params flow_types classes n_dims Hreg Hne)
      in Hd.
    discriminate Hd.
Qed.

(** X4. A tensor with [get_total_param_size()] entries is always accepted by
    the layer that reported that size, and the chain built from it has one
    bijector per flow type. *)
Theorem total_param_size_is_accepted flow_types n_dims trainable layer size (t : list R) :
  InverseNormalizingFlowLayer_init FLOWS flow_types n_dims trainable = inr layer ->
  get_total_param_size FLOWS layer = inr size ->
  length t = size ->
  exists chain,
    make_flow_dist FLOWS layer t =
      inr (TransformedDistribution (_get_base_dist t n_dims trainable) chain)
    /\ length (bijectors chain) = length flow_types.
Proof.
  intros Hinit Hsize Hlen. apply init_inr in Hinit as [-> [classes Hreg]].
  rewrite (get_total_param_size_registered FLOWS _ _ _ _ Hreg) in Hsize.
  injection Hsize as Hsize.
  exists (MkChain (chain_from (if trainable then drop (2 * n_dims) t else t) n_dims 0
                     (rev classes))).
  split.
  - unfold make_flow_dist. cbn [_n_dims _trainable_base_dist _flow_types].
    rewrite (_get_bijector_ok FLOWS _ flow_types classes n_dims Hreg); [reflexivity|].
    destruct trainable; [rewrite length_drop|]; lia.
  - cbn [bijectors]. rewrite chain_from_length, length_rev. apply registered_length, Hreg.
Qed.

(** X5. [_get_bijector] cuts the tensor into consecutive blocks, one per flow
    in reversed order and of that flow's parameter size: the blocks put
    together again are the tensor, so every entry goes to exactly one flow. *)
Theorem get_bijector_partitions_tensor (t : list R) flow_types classes n_dims :
  registered FLOWS flow_types classes ->
  sum_list (param_sizes_of classes n_dims) = length t ->
  let sizes := param_sizes_of (rev classes) n_dims in
  let blocks := reshape sizes t in
  _get_bijector FLOWS t flow_types n_dims =
    inr (MkChain (zip_with (fun cls block => construct cls block n_dims) (rev classes) blocks))
  /\ mjoin blocks = t
  /\ map length blocks = sizes.
Proof.
  intros Hreg Hlen sizes blocks.
  assert (Hsum : sum_list sizes = length t).
  { unfold sizes. rewrite param_sizes_of_rev, sum_list_rev. exact Hlen. }
  split; [|split].
  - rewrite (_get_bijector_ok FLOWS t flow_types classes n_dims Hreg Hlen).
    rewrite chain_from_reshape. reflexivity.
  - apply join_reshape, Hsum.
  - apply reshape_lengths. lia.
Qed.

End FlowLayerExtras.

Section FlowLayerParameters.
Context {Bijector : Type}.
Variable FLOWS : gmap string (FlowClass Bijector).

Lemma _get_base_dist_app (t_base t_flow : list R) n_dims :
  length t_base = 2 * n_dims ->
  @_get_base_dist Bijector (t_base ++ t_flow) n_dims true =
  _get_base_dist t_base n_dims true.
Proof.
  intros Hlen. rewrite !_get_base_dist_trainable.
  rewrite (take_app_le t_base t_flow n_dims) by lia.
  rewrite (drop_app_le t_base t_flow n_dims) by lia.
  rewrite (take_app_le (drop n_dims t_base) t_flow n_dims) by (rewrite length_drop; lia).
  reflexivity.
Qed.

(** X6. With a trainable base, the two halves of the tensor do not mix: for a
    tensor made of [2 * n_dims] base entries followed by the flow entries, the
    base distribution is built from the first part alone and the chain from
    the second part alone. *)
Theorem trainable_layer_splits_parameters flow_types n_dims (t_base t_flow : list R) :
  length t_base = 2 * n_dims ->
  make_flow_dist FLOWS (MkFlowLayer flow_types true n_dims) (t_base ++ t_flow) =
  (bijector <-- _get_bijector FLOWS t_flow flow_types n_dims ;;
   ret (TransformedDistribution (_get_base_dist t_base n_dims true) bijector)).
Proof.
  intros Hlen. unfold make_flow_dist. cbn [_n_dims _trainable_base_dist _flow_types].
  rewrite (_get_base_dist_app _ _ _ Hlen).
  rewrite drop_app_length' by (symmetry; exact Hlen). reflexivity.
Qed.

Lemma param_sizes_of_registered flow_types (classes : list (FlowClass Bijector)) n_dims :
  registered FLOWS flow_types classes ->
  param_sizes_of classes n_dims =
  map (fun flow_type =>
         match FLOWS !! flow_type with
         | Some cls => get_param_size cls n_dims
         | None => 0
         end) flow_types.
Proof.
  induction 1 as [|ft cls fts clss Hft _ IH]; simpl; [reflexivity|].
  rewrite Hft. f_equal. exact IH.
Qed.

(** X8. The parameter count does not depend on the order of the flows: two
    constructed layers whose flow lists are permutations of each other, with
    the same dimension and the same base, report the same total size. *)
Theorem total_param_size_permutation flow_types flow_types' n_dims trainable layer layer' :
  InverseNormalizingFlowLayer_init FLOWS flow_types n_dims trainable = inr layer ->
  InverseNormalizingFlowLayer_init FLOWS flow_types' n_dims trainable = inr layer' ->
  Permutation flow_types flow_types' ->
  get_total_param_size FLOWS layer = get_total_param_size FLOWS layer'.
Proof.
  intros H H' Hperm.
  apply init_inr in H as [-> [classes Hreg]]. apply init_inr in H' as [-> [classes' Hreg']].
  rewrite (get_total_param_size_registered FLOWS _ _ _ _ Hreg).
  rewrite (get_total_param_size_registered FLOWS _ _ _ _ Hreg').
  rewrite (param_sizes_of_registered _ _ n_dims Hreg).
  rewrite (param_sizes_of_registered _ _ n_dims Hreg').
  clear Hreg Hreg'. set (size := fun flow_type : string => _).
  assert (Hsum : sum_list (map size flow_types) = sum_list (map size flow_types')).
  { induction Hperm as [|x l l' _ IH|x y l|l l' l'' _ IH1 _ IH2]; simpl;
      [reflexivity|rewrite IH; reflexivity|lia|congruence]. }
  rewrite Hsum. reflexivity.
Qed.

End FlowLayerParameters.

(** * Further properties of the estimator *)

Section LossExtras.
Context {Bijector : Type}.
Variable log_prob_fn : Distribution Bijector -> list R -> R.
Variable draws : nat -> R.

(** X10. With an output-noise standard deviation of zero the loss is the
    plain negative log-likelihood in the learning phase as well: no noise layer
    is created, no random draw is consumed. *)
Theorem zero_output_noise_is_plain_nll (y_noise_std : Q) (y : list R)
    (p_y : Distribution Bijector) (k : backend) :
  (y_noise_std == 0)%Q ->
  _get_neg_log_likelihood y_noise_std = PlainNll
  /\ call_loss log_prob_fn draws (_get_neg_log_likelihood y_noise_std) y p_y k =
     ((- log_prob_fn p_y y)%R, k).
Proof.
  intros H. apply Qeq_bool_iff in H. unfold _get_neg_log_likelihood. rewrite H.
  split; reflexivity.
Qed.

End LossExtras.

(** The widths of the variational layers of a stack, in order. *)
Lemma dense_widths_hidden (sizes : list nat) posterior prior kl_weight_scale kl_use_exact
    activation (rest : list layer) :
  omap (fun l => match l with LDenseVariational d => Some (units d) | _ => None end)
       (map (fun size =>
               LDenseVariational
                 (MkDenseVariational size posterior prior kl_weight_scale kl_use_exact
                    activation)) sizes ++ rest)
  = sizes ++ omap (fun l => match l with LDenseVariational d => Some (units d) | _ => None end)
                  rest.
Proof. induction sizes as [|s sizes IH]; simpl; [reflexivity|]. f_equal. exact IH. Qed.

Lemma dense_widths_noise (stddev : Q) (rest : list layer) :
  omap (fun l => match l with LDenseVariational d => Some (units d) | _ => None end)
       (LGaussianNoise stddev :: rest)
  = omap (fun l => match l with LDenseVariational d => Some (units d) | _ => None end) rest.
Proof. reflexivity. Qed.

Lemma _get_dense_layers_ok (sizes : list nat) (output_size : nat)
    (posterior prior : weight_fn) (kl_weight_scale : Q) (kl_use_exact : bool)
    (x_noise_std : Q) (activation : string) :
  (kl_weight_scale <= 1)%Q -> (0 <= x_noise_std)%Q ->
  _get_dense_layers (HTuple sizes) output_size posterior prior kl_weight_scale
    kl_use_exact x_noise_std activation
  = inr ((if negb (Qeq_bool x_noise_std 0) then [LGaussianNoise x_noise_std] else [])
         ++ map (fun size =>
                   LDenseVariational
                     (MkDenseVariational size posterior prior kl_weight_scale kl_use_exact
                        activation)) sizes
         ++ [LDenseVariational
               (MkDenseVariational output_size posterior prior kl_weight_scale kl_use_exact
                  "linear")]).
Proof.
  intros Hkl Hx. apply Qle_bool_iff in Hkl, Hx.
  unfold _get_dense_layers. cbn [assert_tuple bind ret]. rewrite Hkl, Hx. reflexivity.
Qed.

(** X11. What [_get_dense_layers] returns for a tuple of hidden sizes,
    [kl_weight_scale <= 1] and a non-negative input-noise standard deviation:
    a noise layer first exactly when the standard deviation is not zero, then
    one variational layer per hidden size, then the output layer, which is
    linear and [output_size] wide. *)
Theorem dense_layers_structure (sizes : list nat) (output_size : nat)
    (posterior prior : weight_fn) (kl_weight_scale : Q) (kl_use_exact : bool)
    (x_noise_std : Q) (activation : string) :
  (kl_weight_scale <= 1)%Q -> (0 <= x_noise_std)%Q ->
  exists stack,
    _get_dense_layers (HTuple sizes) output_size posterior prior kl_weight_scale
      kl_use_exact x_noise_std activation = inr stack
    /\ length stack = (if Qeq_bool x_noise_std 0 then 0 else 1) + length sizes + 1
    /\ (head stack = Some (LGaussianNoise x_noise_std) <-> ~ (x_noise_std == 0)%Q)
    /\ omap (fun l => match l with LDenseVariational d => Some (units d) | _ => None end) stack
       = sizes ++ [output_size]
    /\ last stack =
       Some (LDenseVariational
               (MkDenseVariational output_size posterior prior kl_weight_scale kl_use_exact
                  "linear")).
Proof.
  intros Hkl Hx. eexists. split; [apply _get_dense_layers_ok; assumption|].
  destruct (Qeq_bool x_noise_std 0) eqn:E; cbn [negb app].
  - apply Qeq_bool_iff in E. split; [|split; [|split]].
    + rewrite length_app, length_map. simpl. lia.
    + split; [|intros H; contradiction].
      destruct sizes; simpl; discriminate.
    + rewrite dense_widths_hidden. reflexivity.
    + apply last_snoc.
  - assert (Hne : ~ (x_noise_std == 0)%Q).
    { intros H. apply Qeq_bool_iff in H. congruence. }
    split; [|split; [|split]].
    + simpl. rewrite length_app, length_map. simpl. lia.
    + split; [intros _; exact Hne|reflexivity].
    + rewrite dense_widths_noise, dense_widths_hidden. reflexivity.
    + rewrite app_comm_cons. apply last_snoc.
Qed.

Section EstimatorExtras.
Context {Bijector : Type}.
Variable FLOWS : gmap string (FlowClass Bijector).

(** X12. A constructed estimator ends with the flow layer, preceded by a
    linear variational layer that is exactly as wide as the flow layer's
    [get_total_param_size()]: the network always produces a tensor of the size
    the distribution layer asks for. *)
Theorem estimator_output_width n_dims kl_weight_scale kl_use_exact flow_types classes
    (sizes : list nat) trainable_base_dist activation x_noise_std y_noise_std learning_rate
    trainable_prior :
  registered FLOWS flow_types classes ->
  (kl_weight_scale <= 1)%Q -> (0 <= x_noise_std)%Q ->
  exists dense total,
    BayesianNFEstimator_init FLOWS n_dims kl_weight_scale kl_use_exact flow_types
      (HTuple sizes) trainable_base_dist activation x_noise_std y_noise_std learning_rate
      trainable_prior
    = inr (MkEstimator (dense ++ [LFlow (MkFlowLayer flow_types trainable_base_dist n_dims)])
             learning_rate (_get_neg_log_likelihood y_noise_std))
    /\ get_total_param_size FLOWS (MkFlowLayer flow_types trainable_base_dist n_dims)
       = inr total
    /\ last dense =
       Some (LDenseVariational
               (MkDenseVariational total _get_posterior_fn (_get_prior_fn trainable_prior)
                  kl_weight_scale kl_use_exact "linear")).
Proof.
  intros Hreg Hkl Hx.
  set (total := sum_list (param_sizes_of classes n_dims)
                + (if trainable_base_dist then 2 * n_dims else 0)).
  pose proof (_get_dense_layers_ok sizes total _get_posterior_fn
                (_get_prior_fn trainable_prior) kl_weight_scale kl_use_exact x_noise_std
                activation Hkl Hx) as Hdense.
  eexists. exists total. split; [|split].
  - unfold BayesianNFEstimator_init.
    rewrite (init_registered FLOWS _ _ n_dims trainable_base_dist Hreg). cbn [bind].
    rewrite (get_total_param_size_registered FLOWS _ _ _ _ Hreg). cbn [bind].
    fold total. rewrite Hdense. reflexivity.
  - apply get_total_param_size_registered, Hreg.
  - rewrite !app_assoc. apply last_snoc.
Qed.

(** X13. The four precondition checks of the constructor come in a fixed
    order: when at least one of them fails, the [AssertionError] raised is that
    of the first failing one among the flow types, the type of
    [hidden_sizes], [kl_weight_scale <= 1] and [x_noise_std >= 0]. *)
Theorem estimator_init_failure_order n_dims kl_weight_scale kl_use_exact flow_types
    hidden_sizes trainable_base_dist activation x_noise_std y_noise_std learning_rate
    trainable_prior :
  forallb (FLOWS_contains FLOWS) flow_types && is_tuple hidden_sizes
    && Qle_bool kl_weight_scale 1 && Qle_bool 0 x_noise_std = false ->
  BayesianNFEstimator_init FLOWS n_dims kl_weight_scale kl_use_exact flow_types
    hidden_sizes trainable_base_dist activation x_noise_std y_noise_std learning_rate
    trainable_prior
  = inl (AssertionError
           (if negb (forallb (FLOWS_contains FLOWS) flow_types) then FlowTypesRegistered
            else if negb (is_tuple hidden_sizes) then HiddenSizesIsTuple
            else if negb (Qle_bool kl_weight_scale 1) then KlWeightScaleLeOne
            else XNoiseStdNonNegative)).
Proof.
  unfold BayesianNFEstimator_init.
  destruct (forallb (FLOWS_contains FLOWS) flow_types) eqn:Hall.
  - destruct (registered_of_contains FLOWS _ Hall) as [classes Hreg].
    rewrite (init_registered FLOWS _ _ n_dims trainable_base_dist Hreg). cbn [bind].
    rewrite (get_total_param_size_registered FLOWS _ _ _ _ Hreg). cbn [bind negb andb].
    unfold _get_dense_layers.
    destruct hidden_sizes as [sizes|sizes|size];
      cbn [assert_tuple is_tuple bind raise ret negb andb];
      try (intros _; reflexivity).
    destruct (Qle_bool kl_weight_scale 1); cbn [py_assert bind raise ret negb andb];
      [|intros _; reflexivity].
    destruct (Qle_bool 0 x_noise_std); cbn [py_assert bind raise ret negb];
      [discriminate|intros _; reflexivity].
  - intros _. rewrite (init_unregistered FLOWS _ n_dims trainable_base_dist Hall).
    reflexivity.
Qed.

End EstimatorExtras.

(** X14. The fixed base never reads the values of the parameters: two tensors
    of the same length give the same base distribution, whose locations are
    all zero. *)
Theorem fixed_base_ignores_values {Bijector : Type} (t t' : list R) (n_dims : nat) :
  length t = length t' ->
  @_get_base_dist Bijector t n_dims false = _get_base_dist t' n_dims false
  /\ exists loc,
       @_get_base_dist Bijector t n_dims false = MultivariateNormalDiag loc None
       /\ Forall (fun m => m = 0%R) loc.
Proof.
  intros Hlen. rewrite !_get_base_dist_fixed, Hlen. split; [reflexivity|].
  eexists. split; [reflexivity|]. apply Forall_replicate. reflexivity.
Qed.

(** ** Further examples *)

Lemma get_bijector_key_error_example :
  _get_bijector Example.FLOWS [1; 2]%R (["radial"] ++ "spline" :: ["affine"]) 1
  = inl (KeyError "spline").
Proof.
  apply (get_bijector_key_error Example.FLOWS [1; 2]%R ["radial"] "spline" ["affine"]
           [Example.affine] 1).
  - reflexivity.
  - repeat constructor.
Defined.

Lemma make_flow_dist_succeeds_iff_example :
  let t := [1; 2; 3; 4]%R in
  let flow_params := if true then drop (2 * 1) t else t in
  (length flow_params = sum_list (param_sizes_of [Example.affine] 1)
   <-> exists d, make_flow_dist Example.FLOWS (MkFlowLayer ["affine"] true 1) t = inr d)
  /\ (length flow_params = sum_list (param_sizes_of [Example.affine] 1) ->
      make_flow_dist Example.FLOWS (MkFlowLayer ["affine"] true 1) t =
      inr (TransformedDistribution (_get_base_dist t 1 true)
             (MkChain (buildChain_spec flow_params [Example.affine] 1)))).
Proof.
  apply (make_flow_dist_succeeds_iff Example.FLOWS ["affine"] [Example.affine] 1 true).
  - reflexivity.
  - repeat constructor.
  - intros _. simpl. lia.
Defined.

Lemma total_param_size_is_accepted_example :
  exists chain,
    make_flow_dist Example.FLOWS (MkFlowLayer ["radial"; "affine"] true 1)
      [1; 2; 3; 4; 5; 6; 7]%R
    = inr (TransformedDistribution (_get_base_dist [1; 2; 3; 4; 5; 6; 7]%R 1 true) chain)
    /\ length (bijectors chain) = length ["radial"; "affine"].
Proof.
  apply (total_param_size_is_accepted Example.FLOWS ["radial"; "affine"] 1 true
           (MkFlowLayer ["radial"; "affine"] true 1) 7); reflexivity.
Defined.

Lemma get_bijector_partitions_tensor_example :
  let t := [1; 2; 3; 4; 5]%R in
  let sizes := param_sizes_of (rev [Example.radial; Example.affine]) 1 in
  let blocks := reshape sizes t in
  _get_bijector Example.FLOWS t ["radial"; "affine"] 1 =
    inr (MkChain (zip_with (fun cls block => construct cls block 1)
                    (rev [Example.radial; Example.affine]) blocks))
  /\ mjoin blocks = t
  /\ map length blocks = sizes.
Proof.
  apply (get_bijector_partitions_tensor Example.FLOWS [1; 2; 3; 4; 5]%R
           ["radial"; "affine"] [Example.radial; Example.affine] 1).
  - repeat constructor.
  - reflexivity.
Defined.

Lemma trainable_layer_splits_parameters_example :
  make_flow_dist Example.FLOWS (MkFlowLayer ["affine"] true 1) ([1; 2] ++ [3; 4])%R =
  (bijector <-- _get_bijector Example.FLOWS [3; 4]%R ["affine"] 1 ;;
   ret (TransformedDistribution (_get_base_dist [1; 2]%R 1 true) bijector)).
Proof.
  apply (trainable_layer_splits_parameters Example.FLOWS ["affine"] 1 [1; 2]%R [3; 4]%R).
  reflexivity.
Defined.

Lemma total_param_size_permutation_example :
  get_total_param_size Example.FLOWS (MkFlowLayer ["radial"; "affine"; "planar"] false 2)
  = get_total_param_size Example.FLOWS (MkFlowLayer ["planar"; "radial"; "affine"] false 2).
Proof.
  apply (total_param_size_permutation Example.FLOWS ["radial"; "affine"; "planar"]
           ["planar"; "radial"; "affine"] 2 false).
  - reflexivity.
  - reflexivity.
  - change (Permutation (["radial"; "affine"] ++ ["planar"]) (["planar"] ++ ["radial"; "affine"])).
    apply Permutation_app_comm.
Defined.

Lemma zero_output_noise_is_plain_nll_example :
  let p_y : Distribution Example.bijector := Normal [0%R] (ScalarScale 1) in
  _get_neg_log_likelihood 0 = PlainNll
  /\ call_loss Example.log_prob_fn Example.draws (_get_neg_log_likelihood 0) [3%R] p_y
       (MkBackend true 7)
     = ((- Example.log_prob_fn p_y [3%R])%R, MkBackend true 7).
Proof.
  apply (zero_output_noise_is_plain_nll Example.log_prob_fn Example.draws 0 [3%R]).
  reflexivity.
Defined.

Lemma dense_layers_structure_example :
  exists stack,
    _get_dense_layers (HTuple [2; 2; 2]) 2 _get_posterior_fn (_get_prior_fn false) 1 false 1
      "relu" = inr stack
    /\ length stack = (if Qeq_bool 1 0 then 0 else 1) + length [2; 2; 2] + 1
    /\ (head stack = Some (LGaussianNoise 1) <-> ~ (1 == 0)%Q)
    /\ omap (fun l => match l with LDenseVariational d => Some (units d) | _ => None end) stack
       = [2; 2; 2] ++ [2]
    /\ last stack =
       Some (LDenseVariational
               (MkDenseVariational 2 _get_posterior_fn (_get_prior_fn false) 1 false "linear")).
Proof.
  apply (dense_layers_structure [2; 2; 2] 2 _get_posterior_fn (_get_prior_fn false) 1 false 1
           "relu").
  - discriminate.
  - discriminate.
Defined.

Lemma estimator_output_width_example :
  exists dense total,
    BayesianNFEstimator_init Example.FLOWS 1 1 false ["radial"; "radial"] (HTuple [10]) true
      "tanh" 0 0 (2 # 100) false
    = inr (MkEstimator (dense ++ [LFlow (MkFlowLayer ["radial"; "radial"] true 1)])
             (2 # 100) (_get_neg_log_likelihood 0))
    /\ get_total_param_size Example.FLOWS (MkFlowLayer ["radial"; "radial"] true 1) = inr total
    /\ last dense =
       Some (LDenseVariational
               (MkDenseVariational total _get_posterior_fn (_get_prior_fn false) 1 false
                  "linear")).
Proof.
  apply (estimator_output_width Example.FLOWS 1 1 false ["radial"; "radial"]
           [Example.radial; Example.radial] [10] true "tanh" 0 0 (2 # 100) false).
  - repeat constructor.
  - discriminate.
  - discriminate.
Defined.

Lemma estimator_init_failure_order_example :
  BayesianNFEstimator_init Example.FLOWS 1 2 false ["radial"] (HList [10]) true
    "tanh" (-1) 0 (2 # 100) false
  = inl (AssertionError
           (if negb (forallb (FLOWS_contains Example.FLOWS) ["radial"]) then FlowTypesRegistered
            else if negb (is_tuple (HList [10])) then HiddenSizesIsTuple
            else if negb (Qle_bool 2 1) then KlWeightScaleLeOne
            else XNoiseStdNonNegative)).
Proof.
  apply (estimator_init_failure_order Example.FLOWS 1 2 false ["radial"] (HList [10]) true
           "tanh" (-1) 0 (2 # 100) false).
  reflexivity.
Defined.

Lemma fixed_base_ignores_values_example :
  @_get_base_dist Example.bijector [1; 2; 3]%R 1 false = _get_base_dist [7; 8; 9]%R 1 false
  /\ exists loc,
       @_get_base_dist Example.bijector [1; 2; 3]%R 1 false = MultivariateNormalDiag loc None
       /\ Forall (fun m => m = 0%R) loc.
Proof.
  apply (@fixed_base_ignores_values Example.bijector [1; 2; 3]%R [7; 8; 9]%R 1).
  reflexivity.
Defined.
